(** * A URL shortener: [app.py] and the properties of its two handlers

    The service keeps one table, [URL], in SQLite.  [shorten_url]
    ([POST /shorten]) validates a submitted URL, returns the short code it
    already has, or creates a row with a fresh seven-character code;
    [redirect_to_long_url] ([GET /<short_id>]) looks a code up and redirects.

    The table is a list of rows in insertion order, the handlers are written
    in a state-and-exception monad over the database and the random source,
    and the parsed JSON body is a Python value. *)

From Stdlib Require Import List String Ascii Bool Arith NArith ZArith Lia.
From Stdlib Require Import Floats.SpecFloat.
Import ListNotations.

Local Open Scope string_scope.
Set Warnings "-register-all".

(** ** Python values and strings *)

(** What [request.get_json()] hands to the handler: the Python image of a
    JSON document.  A [float] is an IEEE 754 value, a [dict] keeps its items
    in insertion order.  A [str] is text that has a UTF-8 encoding, given by
    the bytes of that encoding; a [str] holding a lone surrogate, which has
    none and which the database driver refuses to bind, is not among these
    values. *)
Inductive pyval : Type :=
| PyNone
| PyBool (b : bool)
| PyInt (z : Z)
| PyFloat (f : spec_float)
| PyStr (s : string)
| PyList (l : list pyval)
| PyDict (d : list (string * pyval)).

(** [bool(v)]: the test behind [if v] and [not v]. *)
Definition truthy (v : pyval) : bool :=
  match v with
  | PyNone => false
  | PyBool b => b
  | PyInt z => negb (Z.eqb z 0)
  | PyFloat f => match f with S754_zero _ => false | _ => true end
  | PyStr s => negb (String.eqb s "")
  | PyList l => match l with [] => false | _ => true end
  | PyDict d => match d with [] => false | _ => true end
  end.

Definition is_str (v : pyval) : bool :=
  match v with PyStr _ => true | _ => false end.

(** [d.get(k)]: the value bound to [k], [None] when there is none. *)
Fixpoint dict_get (d : list (string * pyval)) (k : string) : pyval :=
  match d with
  | [] => PyNone
  | (k', v) :: d' => if String.eqb k' k then v else dict_get d' k
  end.

(** [s.startswith(p)]. *)
Definition startswith (s p : string) : bool := String.prefix p s.

(** [s.startswith((p1, p2, ...))]: some member of the tuple is a prefix. *)
Definition startswith_any (s : string) (ps : list string) : bool :=
  existsb (startswith s) ps.

(** [s[:n]]. *)
Definition slice_to (n : nat) (s : string) : string :=
  string_of_list_ascii (firstn n (list_ascii_of_string s)).

(** [c in s]. *)
Definition char_in (c : ascii) (s : string) : bool :=
  existsb (Ascii.eqb c) (list_ascii_of_string s).

(** Every character of [s] passes [p]. *)
Definition all_chars (p : ascii -> bool) (s : string) : bool :=
  forallb p (list_ascii_of_string s).

(** ** The identifier generator *)

(** Modelled from the spec: the [shortuuid] package imported at the top of
    [app.py] is a dependency that is not part of the sources; the spec has
    the code drawn "from a high-entropy random identifier space" and cut to
    seven characters, over the package's default base-57 alphabet, the
    digits and letters without [0], [1], [I], [O] and [l].  The definitions
    follow the package: a version-4 UUID made of sixteen random bytes,
    written in base 57 with the most significant digit first and padded
    with the first letter of the alphabet to 22 characters. *)
Module shortuuid.

Definition alphabet : string :=
  "23456789ABCDEFGHJKLMNPQRSTUVWXYZabcdefghijkmnopqrstuvwxyz".

Definition alpha_len : N := N.of_nat (String.length alphabet).

(** The padded length: the digits 2^128 needs in base 57. *)
Definition pad_length : nat := 22.

(** [alphabet[i]]. *)
Definition alphabet_at (i : N) : ascii :=
  nth (N.to_nat i) (list_ascii_of_string alphabet) "2"%char.

(** [uuid.uuid4()] from sixteen random bytes read as a number: the
    variant bits are set to [10], the version nibble to [4]. *)
Definition uuid4 (random : N) : N :=
  let i := N.modulo random (2 ^ 128) in
  let i := N.ldiff i (N.shiftl 0xc000 48) in
  let i := N.lor i (N.shiftl 0x8000 48) in
  let i := N.ldiff i (N.shiftl 0xf000 64) in
  N.lor i (N.shiftl 4 76).

(** The [while number:] loop of [int_to_string]: the digits of [number],
    least significant first.  [fuel] bounds the iterations. *)
Fixpoint digits (fuel : nat) (number : N) : list ascii :=
  match fuel with
  | O => []
  | S fuel' =>
      if N.eqb number 0 then []
      else
        let (number', digit) := N.div_eucl number alpha_len in
        alphabet_at digit :: digits fuel' number'
  end.

(** Whether [fuel] iterations bring the loop to [number = 0]. *)
Fixpoint finishes (fuel : nat) (number : N) : bool :=
  match fuel with
  | O => N.eqb number 0
  | S fuel' =>
      if N.eqb number 0 then true
      else finishes fuel' (fst (N.div_eucl number alpha_len))
  end.

Definition int_to_string (number : N) (padding : nat) : string :=
  let output := digits (N.to_nat (N.size number)) number in
  let remainder := Nat.max (padding - List.length output) 0 in
  let output := (output ++ repeat (alphabet_at 0) remainder)%list in
  string_of_list_ascii (rev output).

Definition encode (u : N) : string := int_to_string u pad_length.

(** [shortuuid.uuid()], on the random bytes it draws. *)
Definition uuid (random : N) : string := encode (uuid4 random).

End shortuuid.

(** ** The database *)

(** A row of the [URL] table.  [created_at] is the database's clock at the
    insertion, in seconds.  The database is SQLite: it compares text byte by
    byte and does not enforce the lengths declared for the columns. *)
Record URL : Type := mkURL {
  id : Z;
  short_id : string;
  long_url : string;
  created_at : Z
}.

(** A [URL] object between [URL(...)] and the commit: it has no primary key
    and no timestamp yet. *)
Record URL_object : Type := mkURL_object {
  obj_short_id : string;
  obj_long_url : string
}.

Inductive exception : Type :=
| AttributeError   (* a method looked up on a value that does not have it *)
| IntegrityError   (* sqlalchemy.exc.IntegrityError: a constraint refused the row *)
| ValueError.      (* a header value that holds a newline character *)

(** What a handler works in: the table in insertion order, the operating
    system's random source as the successive sixteen-byte reads it will
    give and how many were taken, and the database clock. *)
Record World : Type := mkWorld {
  urls : list URL;
  urandom : nat -> N;
  reads : nat;
  clock : Z
}.

Definition set_urls (t : list URL) (w : World) : World :=
  {| urls := t; urandom := urandom w; reads := reads w; clock := clock w |}.

Definition set_reads (n : nat) (w : World) : World :=
  {| urls := urls w; urandom := urandom w; reads := n; clock := clock w |}.

Definition set_clock (t : Z) (w : World) : World :=
  {| urls := urls w; urandom := urandom w; reads := reads w; clock := t |}.

(** *** State and exceptions *)

Inductive result (A : Type) : Type :=
| Return (a : A)
| Raise (e : exception).
Arguments Return {A} a.
Arguments Raise {A} e.

Definition M (A : Type) : Type := World -> result A * World.

Definition ret {A} (a : A) : M A := fun w => (Return a, w).

Definition raise {A} (e : exception) : M A := fun w => (Raise e, w).

Definition bind {A B} (m : M A) (k : A -> M B) : M B :=
  fun w =>
    match m w with
    | (Return a, w') => k a w'
    | (Raise e, w') => (Raise e, w')
    end.

Notation "x <- m ;; k" := (bind m (fun x => k))
  (at level 61, m at next level, right associativity).

(** *** Queries and the commit *)

(** [URL.query.filter_by(...).first()]: the first row, in table order,
    that passes the filter. *)
Definition query_first (p : URL -> bool) : M (option URL) :=
  fun w => (Return (find p (urls w)), w).

Definition by_long_url (u : string) (r : URL) : bool := String.eqb (long_url r) u.

Definition by_short_id (c : string) (r : URL) : bool := String.eqb (short_id r) c.

(** The [INTEGER PRIMARY KEY] SQLite assigns: 1 in an empty table, else one
    more than the largest key in use.  This is SQLite's rule as long as the
    largest key is below 2^63 - 1; at that last key SQLite takes an unused
    key at random, which is not followed here, and nothing below is stated
    about the keys. *)
Definition next_id (t : list URL) : Z :=
  match t with
  | [] => 1
  | r :: t' => 1 + fold_right (fun r' m => Z.max (id r') m) (id r) t'
  end.

(** [db.session.add(obj); db.session.commit()]: the [INSERT].  The
    [unique=True] of [short_id] refuses a code the table already holds, the
    transaction is rolled back and the commit raises. *)
Definition session_add_commit (obj : URL_object) : M URL :=
  fun w =>
    if existsb (by_short_id (obj_short_id obj)) (urls w)
    then (Raise IntegrityError, w)
    else
      let row := {| id := next_id (urls w);
                    short_id := obj_short_id obj;
                    long_url := obj_long_url obj;
                    created_at := clock w |} in
      (Return row, set_urls (urls w ++ [row]) w).

(** One sixteen-byte read of the random source. *)
Definition os_urandom : M N :=
  fun w => (Return (urandom w (reads w)), set_reads (S (reads w)) w).

(** ** The model class and the handlers *)

(** [URL.__init__(self, long_url, short_id=None)]. *)
Definition URL_init (long_url : string) (short_id : option string) : M URL_object :=
  match short_id with
  | None =>
      random <- os_urandom ;;
      ret {| obj_short_id := slice_to 7 (shortuuid.uuid random);
             obj_long_url := long_url |}
  | Some s => ret {| obj_short_id := s; obj_long_url := long_url |}
  end.

(** What a view function returns: [jsonify(body), status] or
    [redirect(location, code)]. *)
Inductive response : Type :=
| Json (body : list (string * string)) (status : nat)
| Redirect (location : string) (code : nat).

(** [data.get(key)]: only a [dict] has the method. *)
Definition py_get (data : pyval) (key : string) : M pyval :=
  match data with
  | PyDict d => ret (dict_get d key)
  | _ => raise AttributeError
  end.

(** [shorten_url()], on [request.host_url] and [request.get_json()]. *)
Definition shorten_url (host_url : string) (data : pyval) : M response :=
  long_url <- py_get data "url" ;;
  if negb (truthy long_url) then
    ret (Json [("error", "Missing 'url' parameter")] 400)
  else
    match long_url with
    | PyStr long_url =>
        if negb (startswith_any long_url ["http://"; "https://"]) then
          ret (Json [("error", "URL must start with http:// or https://")] 400)
        else
          existing_url <- query_first (by_long_url long_url) ;;
          match existing_url with
          | Some existing_url =>
              ret (Json [("short_id", short_id existing_url);
                         ("short_url", host_url ++ short_id existing_url);
                         ("message", "URL already shortened")] 200)
          | None =>
              new_url <- URL_init long_url None ;;
              new_url <- session_add_commit new_url ;;
              ret (Json [("short_id", short_id new_url);
                         ("short_url", host_url ++ short_id new_url)] 201)
          end
    | _ => raise AttributeError   (* no [startswith] on this value *)
    end.

(** Whether [s] holds a carriage return or a line feed. *)
Definition has_newline (s : string) : bool :=
  existsb (fun c => Ascii.eqb c "013"%char || Ascii.eqb c "010"%char)
          (list_ascii_of_string s).

(** [redirect(location, code)]: the response carries [location] in its
    [Location] header, and setting a header to a value that holds a
    carriage return or a line feed raises [ValueError]. *)
Definition redirect (location : string) (code : nat) : M response :=
  if has_newline location then raise ValueError
  else ret (Redirect location code).

(** [redirect_to_long_url(short_id)]. *)
Definition redirect_to_long_url (short_id : string) : M response :=
  url_entry <- query_first (by_short_id short_id) ;;
  match url_entry with
  | Some url_entry => redirect (long_url url_entry) 302
  | None => ret (Json [("error", "Short URL not found")] 404)
  end.

(** *** The service over time *)

Inductive request : Type :=
| POST_shorten (host_url : string) (data : pyval)
| GET_code (short_id : string).

Definition handle (r : request) : M response :=
  match r with
  | POST_shorten host_url data => shorten_url host_url data
  | GET_code c => redirect_to_long_url c
  end.

(** A request served when the database clock shows [now]. *)
Definition serve (now : Z) (r : request) (w : World) : result response * World :=
  handle r (set_clock now w).

(** Requests served one after the other. *)
Fixpoint run (rs : list (Z * request)) (w : World) : World :=
  match rs with
  | [] => w
  | (now, r) :: rs' => run rs' (snd (serve now r w))
  end.

(** The service before its first request. *)
Definition fresh (random : nat -> N) : World :=
  {| urls := []; urandom := random; reads := 0; clock := 0 |}.

(** ** What the claims speak of *)

(** The creation input the spec calls valid. *)
Definition valid_url (u : string) : bool :=
  negb (String.eqb u "") && startswith_any u ["http://"; "https://"].

(** No two rows share a short code. *)
Definition unique_short_ids (t : list URL) : Prop := NoDup (map short_id t).

(** No two rows share a long URL. *)
Definition unique_long_urls (t : list URL) : Prop := NoDup (map long_url t).

(** The code a creation response carries. *)
Definition short_id_of (r : response) : option string :=
  match r with
  | Json (("short_id", c) :: _) _ => Some c
  | _ => None
  end.

(** The candidate the next creation would draw. *)
Definition next_candidate (w : World) : string :=
  slice_to 7 (shortuuid.uuid (urandom w (reads w))).

(** The characters a reader mistakes for one another. *)
Definition ambiguous : string := "0OIl1".

(** Letters and digits, the characters that need no escaping in a URL path. *)
Definition url_safe (c : ascii) : bool :=
  let n := nat_of_ascii c in
  ((48 <=? n)%nat && (n <=? 57)%nat)
  || ((65 <=? n)%nat && (n <=? 90)%nat)
  || ((97 <=? n)%nat && (n <=? 122)%nat).

(** The property every letter of the alphabet has: it is in the alphabet,
    it is not one of the ambiguous characters, it is a letter or digit. *)
Definition good_char (c : ascii) : bool :=
  char_in c shortuuid.alphabet && negb (char_in c ambiguous) && url_safe c.

(** ** The paths through [shorten_url] *)

(** The row a creation inserts: the table's next key, the candidate drawn
    from the random source, the submitted URL, the clock. *)
Definition new_row (w : World) (long_url : string) : URL :=
  {| id := next_id (urls w);
     short_id := next_candidate w;
     long_url := long_url;
     created_at := clock w |}.

Definition schemes : list string := ["http://"; "https://"].

Definition missing_url : response :=
  Json [("error", "Missing 'url' parameter")] 400.

Definition bad_scheme : response :=
  Json [("error", "URL must start with http:// or https://")] 400.

Definition already_shortened (host_url c : string) : response :=
  Json [("short_id", c); ("short_url", host_url ++ c);
        ("message", "URL already shortened")] 200.

Definition created (host_url c : string) : response :=
  Json [("short_id", c); ("short_url", host_url ++ c)] 201.

Definition not_found : response :=
  Json [("error", "Short URL not found")] 404.

(** One constructor for each way through the handler, with the conditions
    that select it. *)
Inductive shorten_path (host_url : string) (data : pyval) (w : World)
  : result response * World -> Prop :=
| path_no_get :
    (forall d, data <> PyDict d) ->
    shorten_path host_url data w (Raise AttributeError, w)
| path_missing d :
    data = PyDict d ->
    truthy (dict_get d "url") = false ->
    shorten_path host_url data w (Return missing_url, w)
| path_no_startswith d :
    data = PyDict d ->
    truthy (dict_get d "url") = true ->
    is_str (dict_get d "url") = false ->
    shorten_path host_url data w (Raise AttributeError, w)
| path_bad_scheme d s :
    data = PyDict d ->
    dict_get d "url" = PyStr s ->
    s <> "" ->
    startswith_any s schemes = false ->
    shorten_path host_url data w (Return bad_scheme, w)
| path_existing d s e :
    data = PyDict d ->
    dict_get d "url" = PyStr s ->
    valid_url s = true ->
    find (by_long_url s) (urls w) = Some e ->
    shorten_path host_url data w (Return (already_shortened host_url (short_id e)), w)
| path_collision d s :
    data = PyDict d ->
    dict_get d "url" = PyStr s ->
    valid_url s = true ->
    find (by_long_url s) (urls w) = None ->
    existsb (by_short_id (next_candidate w)) (urls w) = true ->
    shorten_path host_url data w (Raise IntegrityError, set_reads (S (reads w)) w)
| path_created d s :
    data = PyDict d ->
    dict_get d "url" = PyStr s ->
    valid_url s = true ->
    find (by_long_url s) (urls w) = None ->
    existsb (by_short_id (next_candidate w)) (urls w) = false ->
    shorten_path host_url data w
      (Return (created host_url (next_candidate w)),
       set_urls (urls w ++ [new_row w s]) (set_reads (S (reads w)) w)).

(** ** The rest of the model class, and measures of a run *)

(** [URL.__repr__(self)]. *)
Definition URL_repr (self : URL) : string := "<URL " ++ short_id self ++ ">".

(** [URL(long_url, short_id)] followed by [db.session.add] and
    [db.session.commit]: a row made through the model class alone. *)
Definition add_URL (long_url : string) (short_id : option string) : M URL :=
  new_url <- URL_init long_url short_id ;;
  session_add_commit new_url.

Definition is_post (r : request) : bool :=
  match r with POST_shorten _ _ => true | GET_code _ => false end.

(** How many of the requests are creations. *)
Definition posts (rs : list (Z * request)) : nat :=
  List.length (filter (fun p => is_post (snd p)) rs).

(** The shape of the codes the service makes. *)
Definition service_code (c : string) : Prop :=
  String.length c = 7 /\ all_chars good_char c = true.

(** ** Strings *)

Section Strings.

Lemma length_string_of_list_ascii (l : list ascii) :
  String.length (string_of_list_ascii l) = List.length l.
Proof. induction l as [|a l IH]; simpl; congruence. Qed.

Lemma length_list_ascii_of_string (s : string) :
  List.length (list_ascii_of_string s) = String.length s.
Proof. induction s as [|a s IH]; simpl; congruence. Qed.

Lemma length_slice_to (n : nat) (s : string) :
  String.length (slice_to n s) = Nat.min n (String.length s).
Proof.
  unfold slice_to.
  now rewrite length_string_of_list_ascii, length_firstn, length_list_ascii_of_string.
Qed.

Lemma all_chars_string_of_list (p : ascii -> bool) (l : list ascii) :
  all_chars p (string_of_list_ascii l) = forallb p l.
Proof. unfold all_chars. now rewrite list_ascii_of_string_of_list_ascii. Qed.

Lemma forallb_firstn {A} (p : A -> bool) (n : nat) (l : list A) :
  forallb p l = true -> forallb p (firstn n l) = true.
Proof.
  revert n; induction l as [|a l IH]; intros [|n] H; simpl in *; auto.
  apply andb_true_iff in H as [Ha Hl]. now rewrite Ha, IH.
Qed.

Lemma all_chars_slice_to (p : ascii -> bool) (n : nat) (s : string) :
  all_chars p s = true -> all_chars p (slice_to n s) = true.
Proof.
  unfold slice_to. rewrite all_chars_string_of_list. apply forallb_firstn.
Qed.

End Strings.

(** ** The generator's output *)

Module shortuuid_facts.
Import shortuuid.

Lemma alphabet_good : all_chars good_char alphabet = true.
Proof. vm_compute. reflexivity. Qed.

Lemma alphabet_at_good (i : N) : good_char (alphabet_at i) = true.
Proof.
  unfold alphabet_at.
  destruct (Nat.lt_ge_cases (N.to_nat i) (List.length (list_ascii_of_string alphabet)))
    as [Hlt|Hge].
  - pose proof alphabet_good as H. unfold all_chars in H.
    rewrite forallb_forall in H. apply H. now apply nth_In.
  - rewrite nth_overflow by exact Hge. vm_compute. reflexivity.
Qed.

Lemma digits_good (fuel : nat) (number : N) :
  forallb good_char (digits fuel number) = true.
Proof.
  revert number; induction fuel as [|fuel IH]; intros number; simpl; [reflexivity|].
  destruct (N.eqb number 0); [reflexivity|].
  destruct (N.div_eucl number alpha_len) as [q r]. simpl.
  now rewrite alphabet_at_good, IH.
Qed.

(** The fuel [int_to_string] gives the loop is enough: the loop stops
    because the number reached zero. *)
Lemma finishes_below (fuel : nat) (number : N) :
  (number < 2 ^ N.of_nat fuel)%N -> finishes fuel number = true.
Proof.
  revert number; induction fuel as [|fuel IH]; intros number Hlt.
  - simpl in *. apply N.eqb_eq. lia.
  - cbn [finishes]. destruct (N.eqb_spec number 0) as [|Hnz]; [reflexivity|].
    apply IH. change (fst (N.div_eucl number alpha_len)) with (number / alpha_len)%N.
    change alpha_len with 57%N.
    rewrite Nat2N.inj_succ, N.pow_succ_r' in Hlt.
    apply N.Div0.div_lt_upper_bound. lia.
Qed.

Lemma int_to_string_finishes (number : N) :
  finishes (N.to_nat (N.size number)) number = true.
Proof. apply finishes_below. rewrite N2Nat.id. apply N.size_gt. Qed.

(** Once the loop finishes, more fuel changes nothing. *)
Lemma digits_more_fuel (fuel extra : nat) (number : N) :
  finishes fuel number = true ->
  digits (fuel + extra) number = digits fuel number.
Proof.
  revert number; induction fuel as [|fuel IH]; intros number H.
  - simpl in H. apply N.eqb_eq in H. subst. destruct extra; reflexivity.
  - cbn [finishes] in H. cbn [digits Nat.add].
    destruct (N.eqb number 0); [reflexivity|].
    destruct (N.div_eucl number alpha_len) as [q r]. simpl in H.
    now rewrite IH.
Qed.

Lemma int_to_string_length (number : N) (padding : nat) :
  padding <= String.length (int_to_string number padding).
Proof.
  unfold int_to_string.
  rewrite length_string_of_list_ascii, length_rev, length_app, repeat_length.
  lia.
Qed.

Lemma int_to_string_good (number : N) (padding : nat) :
  all_chars good_char (int_to_string number padding) = true.
Proof.
  unfold int_to_string.
  rewrite all_chars_string_of_list. apply forallb_forall. intros c Hc.
  apply in_rev, in_app_or in Hc. destruct Hc as [Hc|Hc].
  - pose proof (digits_good (N.to_nat (N.size number)) number) as H.
    rewrite forallb_forall in H. now apply H.
  - apply repeat_spec in Hc. subst. apply alphabet_at_good.
Qed.

Lemma uuid_length (random : N) : 22 <= String.length (uuid random).
Proof. apply (int_to_string_length _ pad_length). Qed.

End shortuuid_facts.

(** ** The paths through [shorten_url], proved *)

Lemma shorten_url_path (host_url : string) (data : pyval) (w : World) :
  shorten_path host_url data w (shorten_url host_url data w).
Proof.
  destruct data as [| b | z | f | s | l | d];
    try (apply path_no_get; intros d' Hd; discriminate Hd).
  unfold shorten_url, bind, py_get, ret at 1.
  destruct (truthy (dict_get d "url")) eqn:Htruthy; cbn [negb].
  2: { eapply path_missing; [reflexivity | exact Htruthy]. }
  destruct (dict_get d "url") as [| b | z | f | s | l | d'] eqn:Hget;
    try (eapply path_no_startswith; [reflexivity | rewrite Hget; exact Htruthy
                                     | rewrite Hget; reflexivity]).
  assert (Hne : s <> "").
  { intros ->. discriminate Htruthy. }
  fold schemes.
  destruct (startswith_any s schemes) eqn:Hscheme; cbn [negb].
  2: { eapply path_bad_scheme; eauto. }
  assert (Hvalid : valid_url s = true).
  { unfold valid_url. fold schemes. rewrite Hscheme.
    simpl in Htruthy. now rewrite Htruthy. }
  unfold query_first.
  destruct (find (by_long_url s) (urls w)) as [e|] eqn:Hfind.
  { eapply path_existing; eauto. }
  unfold URL_init, bind, os_urandom, ret, session_add_commit.
  cbn [urls set_reads obj_short_id obj_long_url clock].
  fold (next_candidate w).
  destruct (existsb (by_short_id (next_candidate w)) (urls w)) eqn:Htaken.
  - eapply path_collision; eauto.
  - eapply path_created; eauto.
Qed.

(** ** The table as a list *)

Section Table.

Lemma find_app_r {A} (p : A -> bool) (l l' : list A) :
  find p l = None -> find p (l ++ l') = find p l'.
Proof.
  induction l as [|a l IH]; simpl; [reflexivity|].
  destruct (p a); [discriminate | exact IH].
Qed.

Lemma taken_iff (c : string) (t : list URL) :
  existsb (by_short_id c) t = true <-> In c (map short_id t).
Proof.
  rewrite existsb_exists, in_map_iff. unfold by_short_id.
  split; intros [r [H1 H2]].
  - apply String.eqb_eq in H2. eauto.
  - exists r. split; [exact H2 | now apply String.eqb_eq].
Qed.

Lemma free_iff (c : string) (t : list URL) :
  existsb (by_short_id c) t = false <-> ~ In c (map short_id t).
Proof.
  rewrite <- taken_iff. destruct (existsb (by_short_id c) t); split; congruence.
Qed.

Lemma find_by_short_id_none (c : string) (t : list URL) :
  find (by_short_id c) t = None <-> (forall r, In r t -> short_id r <> c).
Proof.
  split.
  - intros H r Hr Heq. apply (find_none _ _ H) in Hr.
    unfold by_short_id in Hr. apply String.eqb_neq in Hr. contradiction.
  - intros H. induction t as [|a t IH]; simpl; [reflexivity|].
    unfold by_short_id at 1.
    destruct (String.eqb_spec (short_id a) c) as [Heq|_].
    + exfalso. apply (H a); [now left | exact Heq].
    + apply IH. intros r Hr. apply H. now right.
Qed.

(** Under the uniqueness constraint a code selects the row that holds it. *)
Lemma find_by_short_id_unique (t : list URL) (r : URL) :
  unique_short_ids t -> In r t -> find (by_short_id (short_id r)) t = Some r.
Proof.
  unfold unique_short_ids.
  induction t as [|a t IH]; intros Hnd Hin; [contradiction|].
  simpl in Hnd. inversion Hnd as [|? ? Hnotin Hnd']; subst.
  simpl. unfold by_short_id at 1.
  destruct Hin as [->|Hin].
  - now rewrite String.eqb_refl.
  - destruct (String.eqb_spec (short_id a) (short_id r)) as [Heq|_].
    + exfalso. apply Hnotin. rewrite Heq. now apply in_map.
    + now apply IH.
Qed.

Lemma find_by_long_url_some (u : string) (t : list URL) (e : URL) :
  find (by_long_url u) t = Some e -> In e t /\ long_url e = u.
Proof.
  intros H. apply find_some in H as [Hin Heq]. split; [exact Hin|].
  now apply String.eqb_eq.
Qed.

Lemma find_by_long_url_none (u : string) (t : list URL) :
  find (by_long_url u) t = None <-> ~ In u (map long_url t).
Proof.
  split.
  - intros H Hin. apply in_map_iff in Hin as [r [Heq Hr]].
    apply (find_none _ _ H) in Hr. unfold by_long_url in Hr.
    apply String.eqb_neq in Hr. contradiction.
  - intros H. induction t as [|a t IH]; simpl; [reflexivity|].
    unfold by_long_url at 1.
    destruct (String.eqb_spec (long_url a) u) as [Heq|_].
    + exfalso. apply H. simpl. now left.
    + apply IH. intros Hin. apply H. simpl. now right.
Qed.

Lemma unique_short_ids_snoc (t : list URL) (r : URL) :
  unique_short_ids t -> ~ In (short_id r) (map short_id t) ->
  unique_short_ids (t ++ [r]).
Proof.
  unfold unique_short_ids. intros Hnd Hfree. rewrite map_app. simpl.
  apply NoDup_app; [exact Hnd | repeat constructor; intros [] |].
  intros a Ha [<-|[]]. contradiction.
Qed.

End Table.

(** ** The paths, as equations *)

Section Paths.

Variables (host_url : string) (d : list (string * pyval)) (w : World).

Lemma valid_url_spec (s : string) :
  valid_url s = true <-> s <> "" /\ startswith_any s schemes = true.
Proof.
  unfold valid_url. fold schemes. rewrite andb_true_iff, negb_true_iff.
  now rewrite String.eqb_neq.
Qed.

Lemma shorten_falsy :
  truthy (dict_get d "url") = false ->
  shorten_url host_url (PyDict d) w = (Return missing_url, w).
Proof.
  intros H. unfold shorten_url, bind, py_get, ret at 1. now rewrite H.
Qed.

Lemma shorten_no_startswith :
  truthy (dict_get d "url") = true ->
  is_str (dict_get d "url") = false ->
  shorten_url host_url (PyDict d) w = (Raise AttributeError, w).
Proof.
  intros Ht Hs. unfold shorten_url, bind, py_get, ret at 1. rewrite Ht.
  destruct (dict_get d "url"); try reflexivity. discriminate Hs.
Qed.

Lemma shorten_bad_scheme (s : string) :
  dict_get d "url" = PyStr s ->
  s <> "" ->
  startswith_any s schemes = false ->
  shorten_url host_url (PyDict d) w = (Return bad_scheme, w).
Proof.
  intros Hget Hne Hbad. apply String.eqb_neq in Hne.
  assert (Ht : truthy (dict_get d "url") = true)
    by (rewrite Hget; cbn [truthy]; now rewrite Hne).
  unfold shorten_url, bind, py_get, ret at 1. rewrite Ht, Hget. cbn [negb].
  fold schemes. now rewrite Hbad.
Qed.

Lemma shorten_valid (s : string) :
  dict_get d "url" = PyStr s ->
  valid_url s = true ->
  shorten_url host_url (PyDict d) w =
  match find (by_long_url s) (urls w) with
  | Some e => (Return (already_shortened host_url (short_id e)), w)
  | None =>
      if existsb (by_short_id (next_candidate w)) (urls w)
      then (Raise IntegrityError, set_reads (S (reads w)) w)
      else (Return (created host_url (next_candidate w)),
            set_urls (urls w ++ [new_row w s]) (set_reads (S (reads w)) w))
  end.
Proof.
  intros Hget Hvalid. apply valid_url_spec in Hvalid as [Hne Hok].
  apply String.eqb_neq in Hne.
  assert (Ht : truthy (dict_get d "url") = true)
    by (rewrite Hget; cbn [truthy]; now rewrite Hne).
  unfold shorten_url, bind, py_get, ret at 1. rewrite Ht, Hget. cbn [negb].
  fold schemes. rewrite Hok. cbn [negb].
  unfold query_first. destruct (find (by_long_url s) (urls w)); [reflexivity|].
  unfold URL_init, bind, os_urandom, ret, session_add_commit.
  cbn [urls set_reads obj_short_id obj_long_url clock].
  fold (next_candidate w).
  now destruct (existsb (by_short_id (next_candidate w)) (urls w)).
Qed.

End Paths.

(** ** Validation *)

(** C4: for a body whose [url] is absent or a string, the creation is
    refused with a 400 exactly when the URL is absent or empty, the answer
    then being [Missing 'url' parameter], or does not start with [http://]
    or [https://], the answer for a non-empty one then being
    [URL must start with http:// or https://]; a refusal leaves the table
    and the rest of the state as they were. *)
Theorem invalid_input_iff (host_url : string) (d : list (string * pyval)) (w : World) :
  dict_get d "url" = PyNone \/ is_str (dict_get d "url") = true ->
  (dict_get d "url" = PyNone \/ dict_get d "url" = PyStr "" ->
   shorten_url host_url (PyDict d) w = (Return missing_url, w))
  /\ (forall s, dict_get d "url" = PyStr s -> s <> "" ->
       startswith_any s schemes = false ->
       shorten_url host_url (PyDict d) w = (Return bad_scheme, w))
  /\ ((exists body w', shorten_url host_url (PyDict d) w = (Return (Json body 400), w')) <->
      (dict_get d "url" = PyNone \/ dict_get d "url" = PyStr ""
       \/ exists s, dict_get d "url" = PyStr s /\ startswith_any s schemes = false))
  /\ (forall body w', shorten_url host_url (PyDict d) w = (Return (Json body 400), w') ->
       w' = w).
Proof.
  intros Hshape.
  assert (Hmissing : dict_get d "url" = PyNone \/ dict_get d "url" = PyStr "" ->
                     shorten_url host_url (PyDict d) w = (Return missing_url, w)).
  { intros [H|H]; apply shorten_falsy; rewrite H; reflexivity. }
  split; [exact Hmissing|].
  split; [intros s; apply shorten_bad_scheme|].
  destruct (dict_get d "url") as [| b | z | f | s | l | d'] eqn:Hget;
    try (destruct Hshape as [H|H]; discriminate H).
  { rewrite Hmissing by now left. split.
    - split; [now left | intros _; now do 2 eexists].
    - intros body w' H. now injection H. }
  destruct (String.eqb_spec s "") as [->|Hne].
  { rewrite Hmissing by now right. split.
    - split; [now right; left | intros _; now do 2 eexists].
    - intros body w' H. now injection H. }
  destruct (startswith_any s schemes) eqn:Hscheme.
  - rewrite (shorten_valid host_url d w s Hget)
      by (apply valid_url_spec; now split).
    split.
    + split.
      * intros [body [w' H]].
        destruct (find (by_long_url s) (urls w)); [discriminate H|].
        destruct (existsb _ _); discriminate H.
      * intros [H | [H | [s' [H Hbad]]]]; try discriminate H.
        -- injection H as ->. contradiction.
        -- injection H as <-. congruence.
    + intros body w' H.
      destruct (find (by_long_url s) (urls w)); [discriminate H|].
      destruct (existsb _ _); discriminate H.
  - rewrite (shorten_bad_scheme host_url d w s Hget Hne Hscheme). split.
    + split; [intros _; right; right; eauto | intros _; now do 2 eexists].
    + intros body w' H. now injection H.
Qed.

(** The two refusals the spec gives as examples. *)
Lemma invalid_input_iff_witness :
  shorten_url "http://localhost:5000/" (PyDict [("url", PyStr "ftp://example.com")])
    (fresh (fun _ => 0%N))
  = (Return bad_scheme, fresh (fun _ => 0%N))
  /\ shorten_url "http://localhost:5000/" (PyDict [("url", PyStr "")])
       (fresh (fun _ => 0%N))
     = (Return missing_url, fresh (fun _ => 0%N)).
Proof.
  split.
  - refine (proj1 (proj2 (invalid_input_iff "http://localhost:5000/"
             [("url", PyStr "ftp://example.com")] (fresh (fun _ => 0%N)) _))
             "ftp://example.com" _ _ _);
      [right; reflexivity | reflexivity | discriminate | reflexivity].
  - refine (proj1 (invalid_input_iff "http://localhost:5000/"
             [("url", PyStr "")] (fresh (fun _ => 0%N)) _) _);
      right; reflexivity.
Defined.

(** What a [201] and a [200] say about the state they came from. *)
Lemma created_inversion (host_url : string) (data : pyval) (w w' : World)
      (body : list (string * string)) :
  shorten_url host_url data w = (Return (Json body 201), w') ->
  exists d s,
    data = PyDict d /\ dict_get d "url" = PyStr s /\ valid_url s = true
    /\ find (by_long_url s) (urls w) = None
    /\ existsb (by_short_id (next_candidate w)) (urls w) = false
    /\ Json body 201 = created host_url (next_candidate w)
    /\ w' = set_urls (urls w ++ [new_row w s]) (set_reads (S (reads w)) w).
Proof.
  intros H. pose proof (shorten_url_path host_url data w) as Hpath.
  rewrite H in Hpath. unfold missing_url, bad_scheme, already_shortened in Hpath.
  inversion Hpath; subst. exists d, s. repeat split; auto.
Qed.

Lemma existing_inversion (host_url : string) (data : pyval) (w w' : World)
      (body : list (string * string)) :
  shorten_url host_url data w = (Return (Json body 200), w') ->
  exists d s e,
    data = PyDict d /\ dict_get d "url" = PyStr s /\ valid_url s = true
    /\ find (by_long_url s) (urls w) = Some e
    /\ Json body 200 = already_shortened host_url (short_id e)
    /\ w' = w.
Proof.
  intros H. pose proof (shorten_url_path host_url data w) as Hpath.
  rewrite H in Hpath. unfold missing_url, bad_scheme, created in Hpath.
  inversion Hpath; subst. exists d, s, e. repeat split; auto.
Qed.

(** ** The generated code *)

Lemma next_candidate_length (w : World) : String.length (next_candidate w) = 7.
Proof.
  unfold next_candidate. rewrite length_slice_to.
  pose proof (shortuuid_facts.uuid_length (urandom w (reads w))). lia.
Qed.

Lemma next_candidate_good (w : World) : all_chars good_char (next_candidate w) = true.
Proof.
  apply all_chars_slice_to. apply shortuuid_facts.int_to_string_good.
Qed.

(** C7: the code of a newly created record is the first seven characters
    of the identifier [shortuuid.uuid()] makes from the random bytes it
    draws, and it is exactly seven characters long; it is the code of the
    row the creation adds. *)
Theorem created_code_has_seven_characters
        (host_url : string) (data : pyval) (w w' : World)
        (body : list (string * string)) :
  shorten_url host_url data w = (Return (Json body 201), w') ->
  exists c row,
    short_id_of (Json body 201) = Some c
    /\ c = slice_to 7 (shortuuid.uuid (urandom w (reads w)))
    /\ String.length c = 7
    /\ urls w' = (urls w ++ [row])%list
    /\ short_id row = c.
Proof.
  intros H.
  apply created_inversion in H as (d & s & _ & _ & _ & _ & _ & Hbody & ->).
  exists (next_candidate w), (new_row w s). rewrite Hbody.
  repeat split. apply next_candidate_length.
Qed.

Lemma created_code_has_seven_characters_witness :
  exists c row,
    short_id_of (created "http://localhost:5000/" "Qn8RZQx") = Some c
    /\ c = slice_to 7 (shortuuid.uuid (2 ^ 127))
    /\ String.length c = 7
    /\ [new_row (fresh (fun _ => (2 ^ 127)%N)) "https://example.com/a"] = ([] ++ [row])%list
    /\ short_id row = c.
Proof.
  refine (created_code_has_seven_characters "http://localhost:5000/"
            (PyDict [("url", PyStr "https://example.com/a")])
            (fresh (fun _ => (2 ^ 127)%N))
            (set_urls [new_row (fresh (fun _ => (2 ^ 127)%N)) "https://example.com/a"]
               (set_reads 1 (fresh (fun _ => (2 ^ 127)%N))))
            [("short_id", "Qn8RZQx"); ("short_url", "http://localhost:5000/Qn8RZQx")]
            _).
  vm_compute. reflexivity.
Defined.

(** C10: every character of the code of a newly created record belongs to
    the 57-letter alphabet of [shortuuid], is none of [0], [O], [I], [l],
    [1], and is a letter or a digit, hence safe in a URL path. *)
Theorem created_code_alphabet
        (host_url : string) (data : pyval) (w w' : World)
        (body : list (string * string)) :
  shorten_url host_url data w = (Return (Json body 201), w') ->
  exists c,
    short_id_of (Json body 201) = Some c
    /\ all_chars (fun ch => char_in ch shortuuid.alphabet) c = true
    /\ all_chars (fun ch => negb (char_in ch ambiguous)) c = true
    /\ all_chars url_safe c = true
    /\ String.length shortuuid.alphabet = 57.
Proof.
  intros H.
  apply created_inversion in H as (d & s & _ & _ & _ & _ & _ & Hbody & _).
  exists (next_candidate w). rewrite Hbody.
  split; [reflexivity|].
  pose proof (next_candidate_good w) as Hgood. unfold all_chars in *.
  rewrite forallb_forall in Hgood.
  repeat split; try (apply forallb_forall; intros ch Hch; specialize (Hgood ch Hch);
                     unfold good_char in Hgood;
                     apply andb_true_iff in Hgood as [Hgood Hsafe];
                     apply andb_true_iff in Hgood as [Hin Hamb]; assumption).
Qed.

Lemma created_code_alphabet_witness :
  exists c,
    short_id_of (created "http://localhost:5000/" "Qn8RZQx") = Some c
    /\ all_chars (fun ch => char_in ch shortuuid.alphabet) c = true
    /\ all_chars (fun ch => negb (char_in ch ambiguous)) c = true
    /\ all_chars url_safe c = true
    /\ String.length shortuuid.alphabet = 57.
Proof.
  refine (created_code_alphabet "http://localhost:5000/"
            (PyDict [("url", PyStr "https://example.com/a")])
            (fresh (fun _ => (2 ^ 127)%N))
            (set_urls [new_row (fresh (fun _ => (2 ^ 127)%N)) "https://example.com/a"]
               (set_reads 1 (fresh (fun _ => (2 ^ 127)%N))))
            [("short_id", "Qn8RZQx"); ("short_url", "http://localhost:5000/Qn8RZQx")]
            _).
  vm_compute. reflexivity.
Defined.

(** ** A [url] that is not a string *)

(** C9, as the code has it: a [url] value that is not a string makes the
    handler raise [AttributeError] at [long_url.startswith], leaving the
    state alone, when the value is truthy (a non-zero number, [true], a
    non-empty array or object); a falsy one ([0], [0.0], [false], [null],
    an empty array or object) is answered like a missing URL, with the 400
    [Missing 'url' parameter]. *)
Theorem non_string_url (host_url : string) (d : list (string * pyval)) (w : World) :
  is_str (dict_get d "url") = false ->
  shorten_url host_url (PyDict d) w =
  if truthy (dict_get d "url")
  then (Raise AttributeError, w)
  else (Return missing_url, w).
Proof.
  intros Hstr. destruct (truthy (dict_get d "url")) eqn:Htruthy.
  - now apply shorten_no_startswith.
  - now apply shorten_falsy.
Qed.

Lemma non_string_url_witness :
  shorten_url "http://localhost:5000/" (PyDict [("url", PyInt 5)]) (fresh (fun _ => 0%N))
  = (Raise AttributeError, fresh (fun _ => 0%N)).
Proof.
  exact (non_string_url "http://localhost:5000/" [("url", PyInt 5)]
           (fresh (fun _ => 0%N)) eq_refl).
Defined.

(** C9 as the claim words it fails: the boolean [false] and the number [0]
    are present and are not strings, and the handler answers both with the
    400 of a missing URL instead of raising. *)
Lemma non_string_url_counterexample :
  is_str (PyBool false) = false
  /\ shorten_url "http://localhost:5000/" (PyDict [("url", PyBool false)])
       (fresh (fun _ => 0%N))
     = (Return (Json [("error", "Missing 'url' parameter")] 400), fresh (fun _ => 0%N))
  /\ is_str (PyInt 0) = false
  /\ shorten_url "http://localhost:5000/" (PyDict [("url", PyInt 0)])
       (fresh (fun _ => 0%N))
     = (Return (Json [("error", "Missing 'url' parameter")] 400), fresh (fun _ => 0%N)).
Proof. repeat split. Qed.

(** ** Resolution *)

Lemma redirect_equation (c : string) (w : World) :
  redirect_to_long_url c w =
  match find (by_short_id c) (urls w) with
  | Some url_entry =>
      (if has_newline (long_url url_entry) then Raise ValueError
       else Return (Redirect (long_url url_entry) 302), w)
  | None => (Return not_found, w)
  end.
Proof.
  unfold redirect_to_long_url, bind, query_first, redirect.
  destruct (find (by_short_id c) (urls w)) as [e|]; [|reflexivity].
  now destruct (has_newline (long_url e)).
Qed.

Lemma redirect_not_found (c : string) (w : World) :
  (forall r, In r (urls w) -> short_id r <> c) ->
  redirect_to_long_url c w = (Return not_found, w).
Proof.
  intros Hnone. apply find_by_short_id_none in Hnone.
  now rewrite redirect_equation, Hnone.
Qed.




(** ** A candidate that is taken *)

(** C3, as the code has it: when the candidate drawn for a valid URL that
    has no row yet is a code the table holds, the commit is refused and the
    handler ends with the database's [IntegrityError]; one candidate was
    drawn, none is drawn again, and the table is as it was. *)
Theorem collision_raises (host_url : string) (d : list (string * pyval))
        (s : string) (w : World) :
  dict_get d "url" = PyStr s ->
  valid_url s = true ->
  find (by_long_url s) (urls w) = None ->
  In (next_candidate w) (map short_id (urls w)) ->
  shorten_url host_url (PyDict d) w = (Raise IntegrityError, set_reads (S (reads w)) w)
  /\ urls (snd (shorten_url host_url (PyDict d) w)) = urls w
  /\ reads (snd (shorten_url host_url (PyDict d) w)) = S (reads w).
Proof.
  intros Hget Hvalid Hfind Htaken. apply taken_iff in Htaken.
  rewrite (shorten_valid host_url d w s Hget Hvalid), Hfind, Htaken.
  repeat split.
Qed.

Lemma collision_raises_witness :
  let w := set_urls [mkURL 1 "Qn8RZQx" "https://example.com/a" 0]
             (fresh (fun n => (2 ^ 127 - N.of_nat n * 2 ^ 126)%N)) in
  shorten_url "http://localhost:5000/" (PyDict [("url", PyStr "https://example.com/b")]) w
  = (Raise IntegrityError, set_reads 1 w)
  /\ urls (snd (shorten_url "http://localhost:5000/"
                  (PyDict [("url", PyStr "https://example.com/b")]) w)) = urls w
  /\ reads (snd (shorten_url "http://localhost:5000/"
                   (PyDict [("url", PyStr "https://example.com/b")]) w)) = 1.
Proof.
  intros w.
  apply (collision_raises "http://localhost:5000/"
           [("url", PyStr "https://example.com/b")] "https://example.com/b" w);
    [reflexivity | reflexivity | reflexivity | left; vm_compute; reflexivity].
Defined.

(** C3 as the claim words it fails.  The table holds the code the first
    read of the random source leads to, the second read leads to a code
    that is free, and the URL is new: a retry would create the record under
    the second code, and the handler raises [IntegrityError] after one
    read. *)
Lemma no_retry_counterexample :
  let w := set_urls [mkURL 1 "Qn8RZQx" "https://example.com/a" 0]
             (fresh (fun n => (2 ^ 127 - N.of_nat n * 2 ^ 126)%N)) in
  let out := shorten_url "http://localhost:5000/"
               (PyDict [("url", PyStr "https://example.com/b")]) w in
  valid_url "https://example.com/b" = true
  /\ next_candidate w = "Qn8RZQx"
  /\ next_candidate (set_reads 1 w) = "DQ5DnDV"
  /\ existsb (by_short_id "DQ5DnDV") (urls w) = false
  /\ fst out = Raise IntegrityError
  /\ reads (snd out) = 1
  /\ urls (snd out) = urls w.
Proof. vm_compute. repeat split. Qed.

(** ** One request, many requests *)

Lemma redirect_keeps_world (c : string) (w : World) :
  snd (redirect_to_long_url c w) = w.
Proof.
  rewrite redirect_equation. now destruct (find (by_short_id c) (urls w)).
Qed.

(** A creation request leaves the table alone or appends one row, whose
    code and whose URL no earlier row has and whose URL is valid. *)
Lemma shorten_step (host_url : string) (data : pyval) (w : World) :
  urls (snd (shorten_url host_url data w)) = urls w
  \/ exists s,
      valid_url s = true
      /\ ~ In s (map long_url (urls w))
      /\ ~ In (next_candidate w) (map short_id (urls w))
      /\ urls (snd (shorten_url host_url data w)) = (urls w ++ [new_row w s])%list.
Proof.
  destruct (shorten_url_path host_url data w); try (left; reflexivity).
  right. exists s. repeat split; try assumption.
  - now apply find_by_long_url_none.
  - now apply free_iff.
Qed.

Lemma serve_step (now : Z) (r : request) (w : World) :
  urls (snd (serve now r w)) = urls w
  \/ exists row,
      valid_url (long_url row) = true
      /\ ~ In (long_url row) (map long_url (urls w))
      /\ ~ In (short_id row) (map short_id (urls w))
      /\ urls (snd (serve now r w)) = (urls w ++ [row])%list.
Proof.
  unfold serve. destruct r as [host_url data | c]; cbn [handle].
  - destruct (shorten_step host_url data (set_clock now w)) as [H | [s H]].
    + left. exact H.
    + right. exists (new_row (set_clock now w) s). exact H.
  - left. now rewrite redirect_keeps_world.
Qed.

Lemma serve_unique_short_ids (now : Z) (r : request) (w : World) :
  unique_short_ids (urls w) -> unique_short_ids (urls (snd (serve now r w))).
Proof.
  intros Hunique.
  destruct (serve_step now r w) as [-> | [row (_ & _ & Hfree & ->)]].
  - exact Hunique.
  - now apply unique_short_ids_snoc.
Qed.

Lemma run_unique_short_ids (rs : list (Z * request)) (w : World) :
  unique_short_ids (urls w) -> unique_short_ids (urls (run rs w)).
Proof.
  revert w. induction rs as [|[now r] rs IH]; intros w Hunique; simpl.
  - exact Hunique.
  - apply IH. now apply serve_unique_short_ids.
Qed.

(** What a sequence of requests adds to the table: rows after the ones that
    were there, with pairwise distinct URLs that the table did not hold. *)
Lemma run_added (rs : list (Z * request)) (w : World) :
  exists added,
    urls (run rs w) = (urls w ++ added)%list
    /\ NoDup (map long_url added)
    /\ (forall u, In u (map long_url added) -> ~ In u (map long_url (urls w))).
Proof.
  revert w. induction rs as [|[now r] rs IH]; intros w; simpl.
  - exists []. rewrite app_nil_r. repeat split; [constructor | intros u []].
  - destruct (IH (snd (serve now r w))) as (added & Hurls & Hnodup & Hnew).
    destruct (serve_step now r w) as [Hsame | [row (_ & Hfresh & _ & Hsnoc)]].
    + exists added. rewrite Hsame in Hurls, Hnew. auto.
    + exists (row :: added). rewrite Hsnoc in Hurls, Hnew.
      rewrite <- app_assoc in Hurls. split; [exact Hurls|]. split.
      * simpl. constructor; [|exact Hnodup].
        intros Hin. apply (Hnew _ Hin). rewrite map_app, in_app_iff.
        right. now left.
      * intros u [<-|Hin]; [exact Hfresh|].
        intros Hold. apply (Hnew _ Hin). rewrite map_app, in_app_iff. now left.
Qed.

Lemma run_unique_long_urls (rs : list (Z * request)) (w : World) :
  unique_long_urls (urls w) -> unique_long_urls (urls (run rs w)).
Proof.
  unfold unique_long_urls. intros Hunique.
  destruct (run_added rs w) as (added & -> & Hnodup & Hnew).
  rewrite map_app. apply NoDup_app; [exact Hunique | exact Hnodup |].
  intros u Hold Hin. exact (Hnew u Hin Hold).
Qed.

(** ** Round trip and repeated submission *)

(** The code a creation request for a valid URL answers with, and the state
    it leaves: the code of the first row with that URL. *)
Lemma shorten_answer (host_url : string) (d : list (string * pyval)) (s c : string)
      (w w' : World) (r : response) :
  dict_get d "url" = PyStr s ->
  valid_url s = true ->
  shorten_url host_url (PyDict d) w = (Return r, w') ->
  short_id_of r = Some c ->
  exists e, find (by_long_url s) (urls w') = Some e /\ short_id e = c
            /\ (urls w' = urls w
                \/ (~ In c (map short_id (urls w))
                    /\ urls w' = (urls w ++ [e])%list)).
Proof.
  intros Hget Hvalid Hrun Hcode.
  rewrite (shorten_valid host_url d w s Hget Hvalid) in Hrun.
  destruct (find (by_long_url s) (urls w)) as [e|] eqn:Hfind.
  - injection Hrun as <- <-. injection Hcode as <-.
    exists e. auto.
  - destruct (existsb (by_short_id (next_candidate w)) (urls w)) eqn:Htaken;
      [discriminate Hrun|].
    injection Hrun as <- <-. injection Hcode as <-.
    exists (new_row w s). cbn [urls set_urls]. split; [|split].
    + rewrite (find_app_r _ _ _ Hfind). simpl. unfold by_long_url. simpl.
      now rewrite String.eqb_refl.
    + reflexivity.
    + right. split; [now apply free_iff | reflexivity].
Qed.




(** C2: when a valid URL is submitted and answered with a code, the next
    submission of the same URL is answered with the same code, status 200
    and the message [URL already shortened], and changes nothing but the
    clock; and whatever requests are served one after the other, the rows
    they add have pairwise distinct URLs, none of which the table held
    before, so that a table with one row per URL keeps one row per URL. *)
Theorem second_submission_same_code
        (host1 host2 : string) (d1 d2 : list (string * pyval))
        (s c : string) (w w1 : World) (r1 : response) (t1 t2 : Z) :
  dict_get d1 "url" = PyStr s ->
  dict_get d2 "url" = PyStr s ->
  valid_url s = true ->
  serve t1 (POST_shorten host1 (PyDict d1)) w = (Return r1, w1) ->
  short_id_of r1 = Some c ->
  serve t2 (POST_shorten host2 (PyDict d2)) w1
  = (Return (Json [("short_id", c); ("short_url", host2 ++ c);
                   ("message", "URL already shortened")] 200),
     set_clock t2 w1)
  /\ (forall rs, exists added,
         urls (run rs w) = (urls w ++ added)%list
         /\ NoDup (map long_url added)
         /\ (forall u, In u (map long_url added) -> ~ In u (map long_url (urls w))))
  /\ (forall rs, unique_long_urls (urls w) -> unique_long_urls (urls (run rs w))).
Proof.
  intros Hget1 Hget2 Hvalid Hrun Hcode. unfold serve in *; cbn [handle] in *.
  split; [|split; [intros rs; apply run_added | intros rs; apply run_unique_long_urls]].
  destruct (shorten_answer _ _ _ _ _ _ _ Hget1 Hvalid Hrun Hcode)
    as (e & Hfind & <- & _).
  rewrite (shorten_valid host2 d2 _ s Hget2 Hvalid). cbn [urls set_clock].
  now rewrite Hfind.
Qed.

(** The scenario of the spec: create, then create the same URL again. *)
Lemma second_submission_same_code_witness :
  let w := fresh (fun n => (2 ^ 127 - N.of_nat n * 2 ^ 126)%N) in
  let post := POST_shorten "http://localhost:5000/"
                (PyDict [("url", PyStr "https://example.com/a")]) in
  fst (serve 10 post w) = Return (created "http://localhost:5000/" "Qn8RZQx")
  /\ serve 20 post (snd (serve 10 post w))
     = (Return (already_shortened "http://localhost:5000/" "Qn8RZQx"),
        set_clock 20 (snd (serve 10 post w)))
  /\ List.length (urls (run [(10%Z, post); (20%Z, post); (30%Z, post)] w)) = 1.
Proof.
  intros w post. split; [vm_compute; reflexivity|]. split; [|vm_compute; reflexivity].
  refine (proj1 (second_submission_same_code
                   "http://localhost:5000/" "http://localhost:5000/"
                   [("url", PyStr "https://example.com/a")]
                   [("url", PyStr "https://example.com/a")]
                   "https://example.com/a" "Qn8RZQx" w _
                   (created "http://localhost:5000/" "Qn8RZQx") 10 20 _ _ _ _ _)).
  - reflexivity.
  - reflexivity.
  - reflexivity.
  - vm_compute. reflexivity.
  - reflexivity.
Defined.

(** ** Uniqueness of the codes *)

Lemma commit_refuses_taken (obj : URL_object) (w : World) :
  In (obj_short_id obj) (map short_id (urls w)) ->
  session_add_commit obj w = (Raise IntegrityError, w).
Proof.
  intros Htaken. apply taken_iff in Htaken. unfold session_add_commit.
  now rewrite Htaken.
Qed.

Lemma commit_unique_short_ids (obj : URL_object) (w : World) :
  unique_short_ids (urls w) ->
  unique_short_ids (urls (snd (session_add_commit obj w))).
Proof.
  intros Hunique. unfold session_add_commit.
  destruct (existsb (by_short_id (obj_short_id obj)) (urls w)) eqn:Htaken.
  - exact Hunique.
  - cbn [snd urls set_urls]. apply unique_short_ids_snoc; [exact Hunique|].
    now apply free_iff.
Qed.

(** C6: the codes of the rows are pairwise distinct after any sequence of
    requests served on a table where they were, whatever the random source
    gives, and so from the empty table on; the commit itself keeps them
    distinct for whatever object it is given, refusing with
    [IntegrityError], and leaving the state alone, an object whose code
    the table holds. *)
Theorem short_ids_stay_unique (rs : list (Z * request)) (w : World) :
  unique_short_ids (urls w) ->
  unique_short_ids (urls (run rs w))
  /\ (forall random, unique_short_ids (urls (run rs (fresh random))))
  /\ (forall obj,
         unique_short_ids (urls (snd (session_add_commit obj (run rs w)))))
  /\ (forall obj,
         In (obj_short_id obj) (map short_id (urls (run rs w))) ->
         session_add_commit obj (run rs w) = (Raise IntegrityError, run rs w)).
Proof.
  intros Hunique. split; [|split; [|split]].
  - now apply run_unique_short_ids.
  - intros random. apply run_unique_short_ids. constructor.
  - intros obj. now apply commit_unique_short_ids, run_unique_short_ids.
  - intros obj. apply commit_refuses_taken.
Qed.

(** A random source that gives the same bytes every time: the second new
    URL draws the code of the first, the commit refuses it, and the table
    keeps its one row. *)
Lemma short_ids_stay_unique_witness :
  let w := fresh (fun _ => (2 ^ 127)%N) in
  let rs := [(10%Z, POST_shorten "http://localhost:5000/"
                      (PyDict [("url", PyStr "https://example.com/a")]));
             (20%Z, POST_shorten "http://localhost:5000/"
                      (PyDict [("url", PyStr "https://example.com/b")]))] in
  unique_short_ids (urls (run rs w))
  /\ map short_id (urls (run rs w)) = ["Qn8RZQx"]
  /\ session_add_commit (mkURL_object "Qn8RZQx" "https://example.com/c") (run rs w)
     = (Raise IntegrityError, run rs w).
Proof.
  intros w rs.
  assert (Hempty : unique_short_ids (urls w)) by constructor.
  split; [|split].
  - exact (proj1 (short_ids_stay_unique rs w Hempty)).
  - vm_compute. reflexivity.
  - apply (proj2 (proj2 (proj2 (short_ids_stay_unique rs w Hempty)))).
    left. vm_compute. reflexivity.
Defined.

(** ** What a request leaves alone *)

Lemma run_keeps_rows (rs : list (Z * request)) (w : World) (i : nat) (r : URL) :
  nth_error (urls w) i = Some r -> nth_error (urls (run rs w)) i = Some r.
Proof.
  intros Hnth. destruct (run_added rs w) as (added & -> & _).
  rewrite nth_error_app1; [exact Hnth|].
  apply nth_error_Some. congruence.
Qed.

(** C8: a creation answered with 201 leaves the table with the rows it
    had, in their places, followed by one new row; a creation answered
    with 200 leaves the whole state as it was, and so does a resolution;
    any other end of a creation leaves the table as it was; and over any
    sequence of requests every row stays in its place with all its
    fields. *)
Theorem requests_only_append :
  (forall host_url data w w' body,
      shorten_url host_url data w = (Return (Json body 201), w') ->
      exists row, urls w' = (urls w ++ [row])%list)
  /\ (forall host_url data w w' body,
         shorten_url host_url data w = (Return (Json body 200), w') -> w' = w)
  /\ (forall host_url data w,
         (forall body, fst (shorten_url host_url data w) <> Return (Json body 201)) ->
         urls (snd (shorten_url host_url data w)) = urls w)
  /\ (forall c w, snd (redirect_to_long_url c w) = w)
  /\ (forall rs w i r,
         nth_error (urls w) i = Some r -> nth_error (urls (run rs w)) i = Some r).
Proof.
  split; [|split; [|split; [|split]]].
  - intros host_url data w w' body H.
    apply created_inversion in H as (d & s & _ & _ & _ & _ & _ & _ & ->).
    now exists (new_row w s).
  - intros host_url data w w' body H.
    now apply existing_inversion in H as (d & s & e & _ & _ & _ & _ & _ & ->).
  - intros host_url data w Hnot.
    destruct (shorten_url_path host_url data w); try reflexivity.
    exfalso. now apply (Hnot [("short_id", next_candidate w);
                               ("short_url", host_url ++ next_candidate w)]).
  - apply redirect_keeps_world.
  - apply run_keeps_rows.
Qed.

(** One creation, one repetition, one resolution: a single row is added,
    by the first request, and it is still the first row at the end. *)
Lemma requests_only_append_witness :
  let w := fresh (fun _ => (2 ^ 127)%N) in
  let post := POST_shorten "http://localhost:5000/"
                (PyDict [("url", PyStr "https://example.com/a")]) in
  let row := mkURL 1 "Qn8RZQx" "https://example.com/a" 10 in
  urls (snd (serve 10 post w)) = [row]
  /\ nth_error (urls (run [(20%Z, post); (30%Z, GET_code "Qn8RZQx")]
                        (snd (serve 10 post w)))) 0 = Some row.
Proof.
  intros w post row. split; [vm_compute; reflexivity|].
  apply (proj2 (proj2 (proj2 (proj2 requests_only_append)))).
  vm_compute. reflexivity.
Defined.

(** * Further properties of the handlers and of the model class *)

(** ** The rows the service adds *)

(** The step of a run, with the added row named. *)
Lemma serve_step_row (now : Z) (r : request) (w : World) :
  urls (snd (serve now r w)) = urls w
  \/ exists s,
      valid_url s = true
      /\ urls (snd (serve now r w)) = (urls w ++ [new_row (set_clock now w) s])%list.
Proof.
  unfold serve. destruct r as [host_url data | c]; cbn [handle].
  - destruct (shorten_step host_url data (set_clock now w)) as [H | (s & Hv & _ & _ & H)].
    + left. exact H.
    + right. exists s. split; assumption.
  - left. now rewrite redirect_keeps_world.
Qed.

(** A property of rows that every row the service makes has is kept by
    the table. *)
Lemma run_Forall (P : URL -> Prop) :
  (forall w s, valid_url s = true -> P (new_row w s)) ->
  forall rs w, Forall P (urls w) -> Forall P (urls (run rs w)).
Proof.
  intros Hnew rs. induction rs as [|[now r] rs IH]; intros w Hall; simpl.
  - exact Hall.
  - apply IH. destruct (serve_step_row now r w) as [-> | (s & Hvalid & ->)].
    + exact Hall.
    + apply Forall_app. split; [exact Hall|]. constructor; [|constructor].
      now apply Hnew.
Qed.

(** X1: Only validated URLs are stored: if every long URL of the table starts
    with [http://] or [https://], the same holds after any sequence of
    requests. *)
Theorem stored_urls_stay_valid (rs : list (Z * request)) (w : World) :
  Forall (fun r => valid_url (long_url r) = true) (urls w) ->
  Forall (fun r => valid_url (long_url r) = true) (urls (run rs w)).
Proof.
  apply (run_Forall (fun r => valid_url (long_url r) = true)).
  intros w' s Hvalid. exact Hvalid.
Qed.

Lemma stored_urls_stay_valid_witness :
  Forall (fun r => valid_url (long_url r) = true)
    (urls (run [(10%Z, POST_shorten "http://localhost:5000/"
                         (PyDict [("url", PyStr "https://example.com/a")]));
                (20%Z, POST_shorten "http://localhost:5000/"
                         (PyDict [("url", PyStr "ftp://example.com")]))]
             (fresh (fun _ => (2 ^ 127)%N)))).
Proof.
  apply stored_urls_stay_valid. constructor.
Defined.

(** X2: In a table whose codes all have the shape the service gives them,
    seven characters of the generator's alphabet, the codes keep that shape
    over any sequence of requests, and a code of any other length is
    answered with the 404. *)
Theorem codes_keep_their_shape (rs : list (Z * request)) (w : World) :
  Forall (fun r => service_code (short_id r)) (urls w) ->
  Forall (fun r => service_code (short_id r)) (urls (run rs w))
  /\ (forall c, String.length c <> 7 ->
      redirect_to_long_url c (run rs w) = (Return not_found, run rs w)).
Proof.
  intros Hall.
  assert (Hrun : Forall (fun r => service_code (short_id r)) (urls (run rs w))).
  { revert Hall. apply (run_Forall (fun r => service_code (short_id r))).
    intros w' s _. split; [apply next_candidate_length | apply next_candidate_good]. }
  split; [exact Hrun|].
  intros c Hlen. apply redirect_not_found.
  intros r Hin Heq. rewrite Forall_forall in Hrun.
  destruct (Hrun r Hin) as [Hseven _]. congruence.
Qed.

Lemma codes_keep_their_shape_witness :
  let w := run [(10%Z, POST_shorten "http://localhost:5000/"
                         (PyDict [("url", PyStr "https://example.com/a")]))]
             (fresh (fun _ => (2 ^ 127)%N)) in
  map short_id (urls w) = ["Qn8RZQx"]
  /\ redirect_to_long_url "Qn8RZQ" w = (Return not_found, w)
  /\ redirect_to_long_url "favicon.ico" w = (Return not_found, w)
  /\ redirect_to_long_url "Qn8RZQxx" w = (Return not_found, w).
Proof.
  intros w. split; [vm_compute; reflexivity|].
  assert (Hempty : Forall (fun r => service_code (short_id r))
                     (urls (fresh (fun _ => (2 ^ 127)%N)))) by constructor.
  split; [|split].
  - apply (proj2 (codes_keep_their_shape _ _ Hempty)). discriminate.
  - apply (proj2 (codes_keep_their_shape _ _ Hempty)). discriminate.
  - apply (proj2 (codes_keep_their_shape _ _ Hempty)). discriminate.
Defined.

(** ** What the validation accepts *)

Lemma prefix_append (p s : string) :
  String.prefix p s = true <-> exists rest, s = p ++ rest.
Proof.
  revert s. induction p as [|a p IH]; intros s.
  - split; [intros _; now exists s | intros _; now destruct s].
  - destruct s as [|b s]; simpl.
    + split; [discriminate | intros [rest H]; discriminate H].
    + destruct (Ascii.ascii_dec a b) as [->|Hne].
      * rewrite IH. split; intros [rest H]; exists rest.
        -- now rewrite H.
        -- now injection H.
      * split; [discriminate|]. intros [rest H]. injection H as H _. congruence.
Qed.

Lemma valid_url_append (s : string) :
  valid_url s = true <->
  exists rest, s = "http://" ++ rest \/ s = "https://" ++ rest.
Proof.
  rewrite valid_url_spec. unfold startswith_any, schemes, startswith.
  cbn [existsb]. rewrite orb_false_r, orb_true_iff, !prefix_append. split.
  - intros [_ [[rest H] | [rest H]]]; exists rest; auto.
  - intros [rest [H | H]]; (split; [subst; discriminate|]); eauto.
Qed.

(** X3: The creation handler refuses a submitted string with a 400 exactly
    when the string is not [http://] or [https://] followed by something:
    what follows the prefix, be it nothing at all, never leads to a 400. *)
Theorem validation_is_a_prefix_test (host_url : string) (d : list (string * pyval))
        (s : string) (w : World) :
  dict_get d "url" = PyStr s ->
  ((exists body w',
       shorten_url host_url (PyDict d) w = (Return (Json body 400), w'))
   <-> ~ exists rest, s = "http://" ++ rest \/ s = "https://" ++ rest).
Proof.
  intros Hget. rewrite <- valid_url_append.
  destruct (valid_url s) eqn:Hvalid.
  - rewrite (shorten_valid host_url d w s Hget Hvalid). split.
    + intros [body [w' H]].
      destruct (find (by_long_url s) (urls w)); [discriminate H|].
      destruct (existsb _ _); discriminate H.
    + intros H. now contradiction H.
  - split; [intros _; discriminate|]. intros _.
    destruct (String.eqb_spec s "") as [->|Hne].
    + rewrite shorten_falsy by (rewrite Hget; reflexivity). now do 2 eexists.
    + rewrite (shorten_bad_scheme host_url d w s Hget Hne); [now do 2 eexists|].
      destruct (startswith_any s schemes) eqn:Hscheme; [|reflexivity].
      assert (H : valid_url s = true) by (apply valid_url_spec; now split).
      congruence.
Qed.

(** The bare prefix, and a prefix followed by blanks, are not refused. *)
Lemma validation_is_a_prefix_test_witness :
  ~ (exists body w',
        shorten_url "http://localhost:5000/" (PyDict [("url", PyStr "http://")])
          (fresh (fun _ => 0%N))
        = (Return (Json body 400), w'))
  /\ ~ (exists body w',
           shorten_url "http://localhost:5000/" (PyDict [("url", PyStr "https://   ")])
             (fresh (fun _ => 0%N))
           = (Return (Json body 400), w')).
Proof.
  split; intros H.
  - apply (proj1 (validation_is_a_prefix_test "http://localhost:5000/"
                    [("url", PyStr "http://")] "http://" (fresh (fun _ => 0%N))
                    eq_refl)) in H.
    apply H. exists "". left. reflexivity.
  - apply (proj1 (validation_is_a_prefix_test "http://localhost:5000/"
                    [("url", PyStr "https://   ")] "https://   " (fresh (fun _ => 0%N))
                    eq_refl)) in H.
    apply H. exists "   ". right. reflexivity.
Defined.

(** ** The answers to a valid URL, and the errors *)

(** X4: For a valid URL, the answer is the 200 exactly when some row has
    the URL, character for character; a 201 is given only when no row has
    it and the drawn candidate is free; [IntegrityError] is raised only
    when no row has it and the candidate is taken. *)
Theorem valid_submission_outcome (host_url : string) (d : list (string * pyval))
        (s : string) (w : World) :
  dict_get d "url" = PyStr s ->
  valid_url s = true ->
  ((exists body, fst (shorten_url host_url (PyDict d) w) = Return (Json body 200))
   <-> In s (map long_url (urls w)))
  /\ ((exists body, fst (shorten_url host_url (PyDict d) w) = Return (Json body 201))
      -> ~ In s (map long_url (urls w))
         /\ ~ In (next_candidate w) (map short_id (urls w)))
  /\ (fst (shorten_url host_url (PyDict d) w) = Raise IntegrityError
      -> ~ In s (map long_url (urls w))
         /\ In (next_candidate w) (map short_id (urls w))).
Proof.
  intros Hget Hvalid. rewrite (shorten_valid host_url d w s Hget Hvalid).
  destruct (find (by_long_url s) (urls w)) as [e|] eqn:Hfind.
  - assert (Hin : In s (map long_url (urls w))).
    { apply find_by_long_url_some in Hfind as [Hin <-]. now apply in_map. }
    cbn [fst]. split; [|split].
    + split; [auto | intros _; now eexists].
    + intros [body H]; discriminate H.
    + discriminate.
  - apply find_by_long_url_none in Hfind.
    destruct (existsb (by_short_id (next_candidate w)) (urls w)) eqn:Htaken; cbn [fst].
    + apply taken_iff in Htaken. split; [|split].
      * split; [intros [body H]; discriminate H | contradiction].
      * intros [body H]; discriminate H.
      * auto.
    + apply free_iff in Htaken. split; [|split].
      * split; [intros [body H]; discriminate H | contradiction].
      * auto.
      * discriminate.
Qed.

Lemma valid_submission_outcome_witness :
  let w := set_urls [mkURL 1 "Qn8RZQx" "https://example.com/a" 0]
             (fresh (fun _ => (2 ^ 127)%N)) in
  (exists body,
      fst (shorten_url "http://localhost:5000/"
             (PyDict [("url", PyStr "https://example.com/a")]) w)
      = Return (Json body 200))
  /\ (~ In "https://example.com/A" (map long_url (urls w))
      /\ In (next_candidate w) (map short_id (urls w))).
Proof.
  intros w. split.
  - apply (proj1 (valid_submission_outcome "http://localhost:5000/"
                    [("url", PyStr "https://example.com/a")]
                    "https://example.com/a" w eq_refl eq_refl)).
    left. reflexivity.
  - apply (proj2 (proj2 (valid_submission_outcome "http://localhost:5000/"
                           [("url", PyStr "https://example.com/A")]
                           "https://example.com/A" w eq_refl eq_refl))).
    vm_compute. reflexivity.
Defined.

(** X5: Whenever the creation handler raises, the table is as it was.  An
    [AttributeError] comes with the whole state untouched, and only from a
    body that is not an object or a [url] that is truthy and not a string;
    an [IntegrityError] comes after one read of the random source, and
    only for a valid URL that has no row and whose candidate is taken. *)
Theorem shorten_raise_causes (host_url : string) (data : pyval) (w w' : World)
        (e : exception) :
  shorten_url host_url data w = (Raise e, w') ->
  urls w' = urls w
  /\ (e = AttributeError ->
      w' = w
      /\ ((forall d, data <> PyDict d)
          \/ exists d, data = PyDict d
                       /\ truthy (dict_get d "url") = true
                       /\ is_str (dict_get d "url") = false))
  /\ (e = IntegrityError ->
      w' = set_reads (S (reads w)) w
      /\ exists d s, data = PyDict d /\ dict_get d "url" = PyStr s
                     /\ valid_url s = true
                     /\ ~ In s (map long_url (urls w))
                     /\ In (next_candidate w) (map short_id (urls w))).
Proof.
  intros H. pose proof (shorten_url_path host_url data w) as Hpath.
  rewrite H in Hpath. inversion Hpath; subst.
  - split; [reflexivity|]. split; [auto | discriminate].
  - split; [reflexivity|]. split; [|discriminate].
    intros _. split; [reflexivity|]. right. exists d. auto.
  - split; [reflexivity|]. split; [discriminate|].
    intros _. split; [reflexivity|]. exists d, s.
    repeat split; try assumption.
    + now apply find_by_long_url_none.
    + now apply taken_iff.
Qed.

Lemma shorten_raise_causes_witness :
  let w := fresh (fun _ => 0%N) in
  urls w = urls w
  /\ (AttributeError = AttributeError ->
      w = w
      /\ ((forall d, PyList [PyStr "https://example.com/a"] <> PyDict d)
          \/ exists d, PyList [PyStr "https://example.com/a"] = PyDict d
                       /\ truthy (dict_get d "url") = true
                       /\ is_str (dict_get d "url") = false))
  /\ (AttributeError = IntegrityError ->
      w = set_reads (S (reads w)) w
      /\ exists d s, PyList [PyStr "https://example.com/a"] = PyDict d
                     /\ dict_get d "url" = PyStr s
                     /\ valid_url s = true
                     /\ ~ In s (map long_url (urls w))
                     /\ In (next_candidate w) (map short_id (urls w))).
Proof.
  intros w.
  exact (shorten_raise_causes "http://localhost:5000/"
           (PyList [PyStr "https://example.com/a"]) w w AttributeError eq_refl).
Defined.

(** ** The random source *)

(** X6: The handlers never touch the stream of random bytes or the clock,
    and a resolution takes no read from the stream.  The creation handler
    takes one read exactly when it goes on to create a row, that is when
    it answers 201 or raises [IntegrityError]; with every other outcome it
    takes none. *)
Theorem random_source_use (host_url : string) (data : pyval) (c : string) (w : World) :
  urandom (snd (shorten_url host_url data w)) = urandom w
  /\ clock (snd (shorten_url host_url data w)) = clock w
  /\ reads (snd (redirect_to_long_url c w)) = reads w
  /\ (reads (snd (shorten_url host_url data w)) = S (reads w) <->
      (exists body, fst (shorten_url host_url data w) = Return (Json body 201))
      \/ fst (shorten_url host_url data w) = Raise IntegrityError)
  /\ (reads (snd (shorten_url host_url data w)) = reads w
      \/ reads (snd (shorten_url host_url data w)) = S (reads w)).
Proof.
  split; [|split; [|split; [|split]]].
  - now destruct (shorten_url_path host_url data w).
  - now destruct (shorten_url_path host_url data w).
  - now rewrite redirect_keeps_world.
  - destruct (shorten_url_path host_url data w);
      cbn [fst snd reads set_reads set_urls];
      unfold missing_url, bad_scheme, already_shortened, created;
      (split; [intros Hreads | intros [[body Hout] | Hout]]);
      try discriminate; try lia; auto.
    left. now eexists.
  - destruct (shorten_url_path host_url data w);
      cbn [snd reads set_reads set_urls]; auto.
Qed.

(** ** Answers that last *)

Lemma find_app_some {A} (p : A -> bool) (l l' : list A) (x : A) :
  find p l = Some x -> find p (l ++ l') = Some x.
Proof.
  induction l as [|a l IH]; simpl; [discriminate|].
  destruct (p a); [trivial | exact IH].
Qed.

(** What a query finds it keeps finding, whatever requests come after. *)
Lemma run_find_stable (p : URL -> bool) (rs : list (Z * request)) (w : World) (e : URL) :
  find p (urls w) = Some e -> find p (urls (run rs w)) = Some e.
Proof.
  intros Hfind. destruct (run_added rs w) as (added & -> & _).
  now apply find_app_some.
Qed.

(** X7: Once a valid URL has been answered with a code, every later submission
    of it is answered with that code and the 200, whatever requests were
    served in between and from whatever host it is submitted. *)
Theorem code_is_stable
        (host1 host2 : string) (d1 d2 : list (string * pyval))
        (s c : string) (w w1 : World) (r1 : response) (t1 t2 : Z)
        (rs : list (Z * request)) :
  dict_get d1 "url" = PyStr s ->
  dict_get d2 "url" = PyStr s ->
  valid_url s = true ->
  serve t1 (POST_shorten host1 (PyDict d1)) w = (Return r1, w1) ->
  short_id_of r1 = Some c ->
  serve t2 (POST_shorten host2 (PyDict d2)) (run rs w1)
  = (Return (already_shortened host2 c), set_clock t2 (run rs w1)).
Proof.
  intros Hget1 Hget2 Hvalid Hrun Hcode. unfold serve in *; cbn [handle] in *.
  destruct (shorten_answer _ _ _ _ _ _ _ Hget1 Hvalid Hrun Hcode)
    as (e & Hfind & <- & _).
  rewrite (shorten_valid host2 d2 _ s Hget2 Hvalid). cbn [urls set_clock].
  now rewrite (run_find_stable _ rs w1 e Hfind).
Qed.

Lemma code_is_stable_witness :
  let w := fresh (fun n => (2 ^ 127 - N.of_nat n * 2 ^ 126)%N) in
  let post_a := POST_shorten "http://localhost:5000/"
                  (PyDict [("url", PyStr "https://example.com/a")]) in
  let post_b := POST_shorten "http://localhost:5000/"
                  (PyDict [("url", PyStr "https://example.com/b")]) in
  let rs := [(20%Z, post_b); (30%Z, GET_code "zzzzzzz")] in
  serve 40 (POST_shorten "http://short.example/"
              (PyDict [("url", PyStr "https://example.com/a"); ("note", PyInt 1)]))
    (run rs (snd (serve 10 post_a w)))
  = (Return (already_shortened "http://short.example/" "Qn8RZQx"),
     set_clock 40 (run rs (snd (serve 10 post_a w)))).
Proof.
  intros w post_a post_b rs.
  refine (code_is_stable "http://localhost:5000/" "http://short.example/"
            [("url", PyStr "https://example.com/a")]
            [("url", PyStr "https://example.com/a"); ("note", PyInt 1)]
            "https://example.com/a" "Qn8RZQx" w _
            (created "http://localhost:5000/" "Qn8RZQx") 10 40 rs _ _ _ _ _).
  - reflexivity.
  - reflexivity.
  - reflexivity.
  - vm_compute. reflexivity.
  - reflexivity.
Defined.

(** X8: A code that redirects keeps redirecting to the same URL, whatever
    requests are served afterwards: no request retargets or retires a
    code. *)
Theorem resolution_is_stable (c u : string) (w : World) (rs : list (Z * request)) :
  redirect_to_long_url c w = (Return (Redirect u 302), w) ->
  redirect_to_long_url c (run rs w) = (Return (Redirect u 302), run rs w).
Proof.
  rewrite !redirect_equation.
  destruct (find (by_short_id c) (urls w)) as [e|] eqn:Hfind; [|discriminate].
  rewrite (run_find_stable _ rs w e Hfind).
  destruct (has_newline (long_url e)); [discriminate|].
  intros H. injection H as <-. reflexivity.
Qed.

Lemma resolution_is_stable_witness :
  let w := set_urls [mkURL 1 "Qn8RZQx" "https://example.com/a" 0]
             (fresh (fun _ => (2 ^ 126)%N)) in
  let rs := [(20%Z, POST_shorten "http://localhost:5000/"
                      (PyDict [("url", PyStr "https://example.com/b")]))] in
  redirect_to_long_url "Qn8RZQx" (run rs w)
  = (Return (Redirect "https://example.com/a" 302), run rs w).
Proof.
  intros w rs. apply (resolution_is_stable "Qn8RZQx" "https://example.com/a" w rs).
  reflexivity.
Defined.

(** ** The model class *)

(** X9: A row made through the model class with a code of the caller's choice:
    no random bytes are read and nothing is validated or cut.  If the code
    is free the row is appended with the URL and the code as given; the
    code then redirects to the URL when the URL holds no carriage return
    and no line feed, and raises the [ValueError] of [redirect] when it
    holds one.  If the code is taken the commit raises [IntegrityError] and
    nothing changes. *)
Theorem explicit_code_round_trip (long c : string) (w : World) :
  (~ In c (map short_id (urls w)) ->
   exists row,
     add_URL long (Some c) w = (Return row, set_urls (urls w ++ [row]) w)
     /\ short_id row = c /\ long_url row = long
     /\ redirect_to_long_url c (set_urls (urls w ++ [row]) w)
        = (if has_newline long then Raise ValueError
           else Return (Redirect long 302),
           set_urls (urls w ++ [row]) w))
  /\ (In c (map short_id (urls w)) ->
      add_URL long (Some c) w = (Raise IntegrityError, w)).
Proof.
  unfold add_URL, bind, URL_init, ret, session_add_commit. cbn [obj_short_id obj_long_url].
  split.
  - intros Hfree. pose proof Hfree as Hnone. apply free_iff in Hfree. rewrite Hfree.
    eexists. split; [reflexivity|]. cbn [short_id long_url]. repeat split.
    rewrite redirect_equation. cbn [urls set_urls].
    rewrite find_app_r.
    + simpl. unfold by_short_id. simpl. now rewrite String.eqb_refl.
    + apply find_by_short_id_none. intros r Hin Heq. apply Hnone.
      rewrite <- Heq. now apply in_map.
  - intros Htaken. apply taken_iff in Htaken. now rewrite Htaken.
Qed.

Lemma explicit_code_round_trip_witness :
  let w := fresh (fun _ => 0%N) in
  let row := mkURL 1 "my-long-alias" "ftp://example.com" 0 in
  add_URL "ftp://example.com" (Some "my-long-alias") w
  = (Return row, set_urls [row] w)
  /\ redirect_to_long_url "my-long-alias" (set_urls [row] w)
     = (Return (Redirect "ftp://example.com" 302), set_urls [row] w)
  /\ add_URL "https://example.com/a" (Some "my-long-alias") (set_urls [row] w)
     = (Raise IntegrityError, set_urls [row] w).
Proof.
  intros w row. split; [reflexivity|]. split; [reflexivity|].
  apply (proj2 (explicit_code_round_trip "https://example.com/a" "my-long-alias"
                  (set_urls [row] w))).
  left. reflexivity.
Defined.

Lemma append_char_cancel (a b : string) (x : ascii) :
  a ++ String x "" = b ++ String x "" -> a = b.
Proof.
  revert b. induction a as [|c a IH]; intros [|c' b] H; simpl in H.
  - reflexivity.
  - injection H as _ H. destruct b; discriminate H.
  - injection H as _ H. destruct a; discriminate H.
  - injection H as -> H. now rewrite (IH b H).
Qed.

(** X10: The printed form of a row names it: under the uniqueness of the codes,
    two rows of the table that print alike are the same row. *)
Theorem repr_identifies_row (t : list URL) (r1 r2 : URL) :
  unique_short_ids t ->
  In r1 t -> In r2 t ->
  URL_repr r1 = URL_repr r2 ->
  r1 = r2.
Proof.
  intros Hunique Hin1 Hin2 Hrepr. unfold URL_repr in Hrepr.
  simpl in Hrepr. injection Hrepr as Hrepr. apply append_char_cancel in Hrepr.
  pose proof (find_by_short_id_unique t r1 Hunique Hin1) as H1.
  pose proof (find_by_short_id_unique t r2 Hunique Hin2) as H2.
  rewrite Hrepr in H1. congruence.
Qed.

Lemma repr_identifies_row_witness :
  URL_repr (mkURL 1 "Qn8RZQx" "https://example.com/a" 0) = "<URL Qn8RZQx>"
  /\ mkURL 1 "Qn8RZQx" "https://example.com/a" 0
     = mkURL 1 "Qn8RZQx" "https://example.com/a" 0.
Proof.
  split; [reflexivity|].
  apply (repr_identifies_row
           [mkURL 1 "Qn8RZQx" "https://example.com/a" 0;
            mkURL 2 "DQ5DnDV" "https://example.com/b" 5]).
  - repeat constructor; simpl; intuition discriminate.
  - left. reflexivity.
  - left. reflexivity.
  - reflexivity.
Defined.

(** ** How much a run can add *)

Lemma serve_growth (now : Z) (r : request) (w : World) :
  List.length (urls (snd (serve now r w))) + reads w
  <= List.length (urls w) + reads (snd (serve now r w))
  /\ reads w <= reads (snd (serve now r w))
  /\ reads (snd (serve now r w)) <= reads w + (if is_post r then 1 else 0)
  /\ List.length (urls w) <= List.length (urls (snd (serve now r w))).
Proof.
  unfold serve. destruct r as [host_url data | c]; cbn [handle is_post].
  - destruct (shorten_url_path host_url data (set_clock now w));
      cbn [snd urls reads set_urls set_reads set_clock];
      rewrite ?length_app; simpl; lia.
  - rewrite redirect_keeps_world. cbn [urls reads set_clock]. lia.
Qed.

(** X11: The table grows by at most one row for each read of the random source,
    and the source is read at most once for each creation request; a run of
    resolutions alone adds no row and reads nothing. *)
Theorem run_growth (rs : list (Z * request)) (w : World) :
  List.length (urls (run rs w)) + reads w
  <= List.length (urls w) + reads (run rs w)
  /\ reads w <= reads (run rs w)
  /\ reads (run rs w) <= reads w + posts rs
  /\ (posts rs = 0 -> urls (run rs w) = urls w /\ reads (run rs w) = reads w).
Proof.
  assert (Hmain : forall rs w,
             List.length (urls (run rs w)) + reads w
             <= List.length (urls w) + reads (run rs w)
             /\ reads w <= reads (run rs w)
             /\ reads (run rs w) <= reads w + posts rs).
  { clear. intros rs. induction rs as [|[now r] rs IH]; intros w.
    - simpl. unfold posts. simpl. lia.
    - cbn [run]. destruct (IH (snd (serve now r w))) as (H1 & H2 & H3).
      destruct (serve_growth now r w) as (G1 & G2 & G3 & _).
      assert (Hposts : posts ((now, r) :: rs) = (if is_post r then 1 else 0) + posts rs).
      { unfold posts. simpl. now destruct (is_post r). }
      rewrite Hposts. lia. }
  destruct (Hmain rs w) as (H1 & H2 & H3).
  repeat split; try assumption.
  - destruct (run_added rs w) as (added & Hurls & _).
    rewrite Hurls in H1 |- *. rewrite length_app in H1.
    destruct added as [|a added]; [now rewrite app_nil_r|]. simpl in H1. lia.
  - lia.
Qed.

(** ** The row a creation stores *)

(** X12: The row behind a 201 holds the submitted URL character for character,
    the code the response carries, and the database clock of the request. *)
Theorem created_row_fields (host_url : string) (d : list (string * pyval))
        (s : string) (now : Z) (w w' : World) (body : list (string * string)) :
  dict_get d "url" = PyStr s ->
  serve now (POST_shorten host_url (PyDict d)) w = (Return (Json body 201), w') ->
  exists row,
    urls w' = (urls w ++ [row])%list
    /\ long_url row = s
    /\ short_id_of (Json body 201) = Some (short_id row)
    /\ created_at row = now.
Proof.
  intros Hget Hrun. unfold serve in Hrun; cbn [handle] in Hrun.
  apply created_inversion in Hrun
    as (d' & s' & Hd & Hget' & _ & _ & _ & Hbody & ->).
  injection Hd as <-. rewrite Hget in Hget'. injection Hget' as <-.
  exists (new_row (set_clock now w) s). rewrite Hbody.
  repeat split.
Qed.

Lemma created_row_fields_witness :
  exists row,
    [mkURL 1 "Qn8RZQx" "https://example.com/a?x=1&y=%20" 99]
    = ([] ++ [row])%list
    /\ long_url row = "https://example.com/a?x=1&y=%20"
    /\ short_id_of (created "http://localhost:5000/" "Qn8RZQx") = Some (short_id row)
    /\ created_at row = 99%Z.
Proof.
  refine (created_row_fields "http://localhost:5000/"
            [("url", PyStr "https://example.com/a?x=1&y=%20")]
            "https://example.com/a?x=1&y=%20" 99
            (fresh (fun _ => (2 ^ 127)%N))
            (set_urls [mkURL 1 "Qn8RZQx" "https://example.com/a?x=1&y=%20" 99]
               (set_reads 1 (set_clock 99 (fresh (fun _ => (2 ^ 127)%N)))))
            [("short_id", "Qn8RZQx"); ("short_url", "http://localhost:5000/Qn8RZQx")]
            eq_refl _).
  vm_compute. reflexivity.
Defined.
